(** * SpiTransceiver: the transaction aggregator of the stm32wl SPI analyzer

    A shallow embedding of [src/SpiTransceiver.py].  The analyzer object is
    a record that is passed through every method; a method that can raise
    or print returns an [outcome].  The command table is a finite map. *)

From Stdlib Require Import ZArith Lia.
From Stdlib Require Import Init.Byte.
From stdpp Require Import gmap strings list fin_maps pretty.

Local Open Scope Z_scope.

(** ** Python values *)

(** A Python [bytes] object; indexing it yields an [int] in [0, 256). *)
Definition bytes := list byte.

Definition int_of_byte (b : byte) : Z := Z.of_N (Byte.to_N b).

(** [str(b)] for a Python [bool]. *)
Definition str_bool (b : bool) : string :=
  if b then "True" else "False".

(** [needle in haystack] on strings, as a proposition. *)
Definition contains (haystack needle : string) : Prop :=
  ∃ pre post : string, haystack = pre +:+ needle +:+ post.

(** A dict literal: the pairs are stored left to right, a later pair
    with the same key replacing an earlier one. *)
Definition dict_literal {V : Type} (items : list (Z * V)) : gmap Z V :=
  foldl (λ d kv, <[kv.1 := kv.2]> d) ∅ items.

(** [d.get(k, dflt)]. *)
Definition dict_get {V : Type} (d : gmap Z V) (k : Z) (dflt : V) : V :=
  default dflt (d !! k).

(** ** The command table *)

Definition COMMANDS_items : list (Z * string) :=
  [ (0x89, "Calibrate");
    (0x98, "CalibrateImage");
    (0x08, "CfgDioIrq");
    (0x07, "ClrError");
    (0x02, "ClrIrqStatus");
    (0x17, "GetError");
    (0x12, "GetIrqStatus");
    (0x14, "GetPacketStatus");
    (0x11, "GetPacketType");
    (0x15, "GetRssiInst");
    (0x13, "GetRxBufferStatus");
    (0x10, "GetStats");
    (0xC0, "GetStatus");
    (0x1E, "ReadBuffer");
    (0x1D, "RegRegister");
    (0x00, "ResetStats");
    (0x8F, "SetBufferBaseAddress");
    (0xC5, "SetCad");
    (0x88, "SetCadParams");
    (0xC1, "SetFs");
    (0xA0, "SetLoRaSymbTimeout");
    (0x8B, "SetModulationParams");
    (0x8C, "SetPacketParams");
    (0x8A, "SetPacketType");
    (0x95, "SetPaConfig");
    (0x96, "SetRegulatorMode");
    (0x86, "SetRfFrequency");
    (0x82, "SetRx");
    (0x94, "SetRxDutyCycle");
    (0x84, "SetSleep");
    (0x80, "SetStandby");
    (0x9F, "SetStopRxTimerOnPreamble");
    (0x97, "SetTcxoMode");
    (0x83, "SetTx");
    (0xD2, "SetTxContinuousPreamble");
    (0xD1, "SetTxContinuousWave");
    (0x8E, "SetTxParams");
    (0x93, "SetTxRxFallbackMode");
    (0x0E, "WriteBuffer");
    (0x0D, "WriteRegister") ].

Definition COMMANDS : gmap Z string := dict_literal COMMANDS_items.

(** ** The register table *)

Definition REGISTERS_items : list (Z * string) :=
  [ (0x06AC, "GBSYNC");
    (0x06B8, "GPKTCTL1A");
    (0x06B9, "GWHITEINIRL");
    (0x06BC, "GCRCINIRH");
    (0x06BE, "GCRCPOLRH");
    (0x06C0, "GSYNC7");
    (0x06CD, "NODE");
    (0x06CE, "BROADCAST");
    (0x0740, "LSYNCH");
    (0x0741, "LSYNCL");
    (0x08AC, "RXGAINC");
    (0x08E7, "PAOCP");
    (0x0902, "RTCCTLR");
    (0x0906, "RTCPRDR2");
    (0x0907, "RTCPRDR1");
    (0x0908, "RTCPRDR0");
    (0x0911, "HSEINTRIM");
    (0x0912, "HSEOUTTRIM");
    (0x0916, "SMPSC0");
    (0x091A, "PC");
    (0x0923, "SMPSC2") ].

Definition REGISTERS : gmap Z string := dict_literal REGISTERS_items.

(** ** The declared result types

    The class attribute [result_types]: for each type of frame the
    analyzer may build, the format the host shows it with. *)
Definition result_types : gmap string (gmap string string) :=
  <[ "error" := {[ "format" := "ERROR: {{data.error_info}}" ]} ]>
    (<[ "command" := {[ "format" := "{{data.cmd}}" ]} ]> ∅).

(** ** Frames *)

(** [AnalyzerFrame(type, start_time, end_time, data)].  The class is the
    same for the frames the analyzer receives and for those it builds;
    [T] is what the two time fields hold and [D] what [data] holds. *)
Record AnalyzerFrame (T D : Type) : Type := mkAnalyzerFrame {
  type : string;
  start_time : T;
  end_time : T;
  data : D
}.
Arguments mkAnalyzerFrame {T D} _ _ _ _.
Arguments type {T D} _.
Arguments start_time {T D} _.
Arguments end_time {T D} _.
Arguments data {T D} _.

(** The two byte strings of an SPI frame's [data], and of the dict that
    [get_frame_data] returns: [d["miso"]] and [d["mosi"]]. *)
Record spi_data : Type := mkSpiData {
  miso : bytes;
  mosi : bytes
}.

Inductive exception : Type :=
| IndexError.

Section Analyzer.

(** The time type of the host application and its [str]. *)
Context {Time : Type} (Time_str : Time → string).

(** [str(t)] where [t] is a time or [None]. *)
Definition str_time (t : option Time) : string :=
  match t with
  | None => "None"
  | Some x => Time_str x
  end.

(** A frame of the input analyzer: both times are set. *)
Definition InFrame : Type := AnalyzerFrame Time spi_data.

(** A frame built by this analyzer: a time field holds whatever the
    analyzer's attribute held, [None] included; [data] is a dict with
    string keys and string values. *)
Definition OutFrame : Type := AnalyzerFrame (option Time) (gmap string string).

(** The attributes of the analyzer object. *)
Record SpiTransceiver : Type := mkSpiTransceiver {
  frames : list InFrame;
  spi_enable : bool;
  transaction_start_time : option Time;
  transaction_end_time : option Time
}.

(** What a call does: it returns (a frame or [None]) with the object
    updated, having printed some lines, or it raises, the object being
    as it was when the exception left the method. *)
Inductive outcome : Type :=
| Returned (ret : option OutFrame) (self' : SpiTransceiver) (printed : list string)
| Raised (e : exception) (self' : SpiTransceiver).

Definition __init__ : SpiTransceiver :=
  {| frames := [];
     spi_enable := false;
     transaction_start_time := None;
     transaction_end_time := None |}.

Definition handle_enable (self : SpiTransceiver) (frame : InFrame) : SpiTransceiver :=
  {| frames := [];
     spi_enable := true;
     transaction_start_time := None;
     transaction_end_time := None |}.

Definition reset (self : SpiTransceiver) : SpiTransceiver :=
  {| frames := [];
     spi_enable := false;
     transaction_start_time := None;
     transaction_end_time := None |}.

Definition is_valid_transaction (self : SpiTransceiver) : bool :=
  spi_enable self && bool_decide (transaction_start_time self ≠ None).

Definition handle_result (self : SpiTransceiver) (frame : InFrame) : SpiTransceiver :=
  if spi_enable self then
    {| frames := frames self ++ [frame];
       spi_enable := spi_enable self;
       transaction_start_time :=
         match transaction_start_time self with
         | None => Some (start_time frame)
         | Some t => Some t
         end;
       transaction_end_time := Some (end_time frame) |}
  else self.

(** The loop of [get_frame_data]: both accumulators are extended by
    each frame in turn. *)
Definition get_frame_data (self : SpiTransceiver) : spi_data :=
  foldl (λ acc frame,
           {| miso := miso acc ++ miso (data frame);
              mosi := mosi acc ++ mosi (data frame) |})
        {| miso := []; mosi := [] |}
        (frames self).

Definition handle_disable (self : SpiTransceiver) (frame : InFrame) : outcome :=
  if is_valid_transaction self then
    let transaction := get_frame_data self in
    match mosi transaction with
    | [] => Raised IndexError self
    | cmd :: _ =>
        let result :=
          mkAnalyzerFrame "command"
            (transaction_start_time self)
            (transaction_end_time self)
            {[ "cmd" := dict_get COMMANDS (int_of_byte cmd) "Unknown" ]} in
        Returned (Some result) (reset self) []
    end
  else
    let result :=
      mkAnalyzerFrame "error"
        (Some (start_time frame))
        (Some (end_time frame))
        {[ "error_info" :=
             "Invalid SPI transaction (spi_enable="
             +:+ str_bool (spi_enable self)
             +:+ ", transaction_start_time="
             +:+ str_time (transaction_start_time self)
             +:+ ")" ]} in
    Returned (Some result) (reset self) [].

Definition handle_error (self : SpiTransceiver) (frame : InFrame) : outcome :=
  Returned None self ["Received 'error' type from input analyzer"].

Definition decode (self : SpiTransceiver) (frame : InFrame) : outcome :=
  if decide (type frame = "enable") then
    Returned None (handle_enable self frame) []
  else if decide (type frame = "result") then
    Returned None (handle_result self frame) []
  else if decide (type frame = "disable") then
    handle_disable self frame
  else if decide (type frame = "error") then
    handle_error self frame
  else
    Returned
      (Some (mkAnalyzerFrame "error"
               (Some (start_time frame))
               (Some (end_time frame))
               {[ "error_info" :=
                    "Unexpected frame type from input analyzer: "
                    +:+ type frame ]}))
      self [].

(** The number of frames a call hands back to the host. *)
Definition emitted (o : outcome) : nat :=
  match o with
  | Returned (Some _) _ _ => 1%nat
  | Returned None _ _ => 0%nat
  | Raised _ _ => 0%nat
  end.

(** The host feeds the frames to [decode] one at a time and collects
    what it returns; an exception ends the run. *)
Fixpoint run (self : SpiTransceiver) (input : list InFrame)
  : list OutFrame * SpiTransceiver * option exception :=
  match input with
  | [] => ([], self, None)
  | frame :: rest =>
      match decode self frame with
      | Returned ret self' _ =>
          let '(out, final, e) := run self' rest in
          (option_list ret ++ out, final, e)
      | Raised e self' => ([], self', Some e)
      end
  end.

(** What the object holds when every byte frame it was given carried at
    least one host-to-device byte. *)
Definition bytes_recorded (self : SpiTransceiver) : Prop :=
  (is_Some (transaction_start_time self) → frames self ≠ []) ∧
  Forall (λ f : InFrame, mosi (data f) ≠ []) (frames self).

(** How the attributes hang together between two calls: frames are
    kept only while enabled, all of them are byte frames, and the two
    times are those of the first and of the last frame kept. *)
Definition consistent (self : SpiTransceiver) : Prop :=
  (spi_enable self = false → frames self = [])
  ∧ Forall (λ f : InFrame, type f = "result") (frames self)
  ∧ transaction_start_time self = start_time <$> head (frames self)
  ∧ transaction_end_time self = end_time <$> last (frames self).

(** The object after a call, whether it returned or raised. *)
Definition state_after (o : outcome) : SpiTransceiver :=
  match o with
  | Returned _ self' _ => self'
  | Raised _ self' => self'
  end.

End Analyzer.

(** ** A concrete host

    Times are nanosecond counts and [str] prints them in decimal. *)

Definition ns_frame (ty : string) (t0 t1 : Z) (mi mo : bytes)
  : AnalyzerFrame Z spi_data :=
  mkAnalyzerFrame ty t0 t1 {| miso := mi; mosi := mo |}.

Definition ns_str : Z → string := pretty.

Definition ns_enable : AnalyzerFrame Z spi_data := ns_frame "enable" 90 90 [] [].
Definition ns_disable : AnalyzerFrame Z spi_data := ns_frame "disable" 200 200 [] [].
Definition ns_trigger : AnalyzerFrame Z spi_data := ns_frame "trigger" 7 9 [] [].
Definition ns_error : AnalyzerFrame Z spi_data := ns_frame "error" 7 9 [] [].

(** One byte each way: [GetStatus] from 100 ns to 108 ns. *)
Definition ns_get_status : AnalyzerFrame Z spi_data :=
  ns_frame "result" 100 108 [Byte.x00] [Byte.xc0].

(** A result frame that carries no byte at all. *)
Definition ns_empty_result : AnalyzerFrame Z spi_data :=
  ns_frame "result" 100 108 [] [].

(** The object after [enable] and then [ns_empty_result]. *)
Definition ns_open_without_bytes : @SpiTransceiver Z :=
  {| frames := [ns_empty_result];
     spi_enable := true;
     transaction_start_time := Some 100;
     transaction_end_time := Some 108 |}.

(** The object after [enable] and then [ns_get_status]. *)
Definition ns_open_get_status : @SpiTransceiver Z :=
  {| frames := [ns_get_status];
     spi_enable := true;
     transaction_start_time := Some 100;
     transaction_end_time := Some 108 |}.

(** ** Strings *)

Lemma append_assoc (s1 s2 s3 : string) :
  (s1 +:+ s2) +:+ s3 = s1 +:+ s2 +:+ s3.
Proof.
  induction s1 as [|c s1 IH]; [reflexivity|].
  change (String c ((s1 +:+ s2) +:+ s3) = String c (s1 +:+ s2 +:+ s3)).
  f_equal. exact IH.
Qed.

Lemma contains_here (pre needle post : string) :
  contains (pre +:+ needle +:+ post) needle.
Proof. by exists pre, post. Qed.

Lemma contains_prepend (pre s needle : string) :
  contains s needle → contains (pre +:+ s) needle.
Proof.
  intros (a & b & ->). exists (pre +:+ a), b.
  symmetry. apply append_assoc.
Qed.

Lemma contains_suffix (pre needle : string) :
  contains (pre +:+ needle) needle.
Proof.
  exists pre, "". f_equal.
  induction needle as [|c s IH]; [reflexivity|].
  change (String c s = String c (s +:+ "")).
  f_equal. exact IH.
Qed.

(** ** The command table *)

Lemma COMMANDS_list_to_map : COMMANDS = list_to_map COMMANDS_items.
Proof. vm_compute. reflexivity. Qed.

Lemma COMMANDS_keys_NoDup : NoDup (COMMANDS_items.*1).
Proof. apply (bool_decide_unpack _). vm_compute. reflexivity. Qed.

Lemma COMMANDS_lookup (k : Z) (name : string) :
  COMMANDS !! k = Some name ↔ (k, name) ∈ COMMANDS_items.
Proof.
  rewrite COMMANDS_list_to_map.
  symmetry. apply elem_of_list_to_map, COMMANDS_keys_NoDup.
Qed.

Lemma COMMANDS_size : size COMMANDS = 40%nat.
Proof.
  rewrite COMMANDS_list_to_map.
  rewrite (map_size_list_to_map (M := gmap Z)); [reflexivity|].
  apply COMMANDS_keys_NoDup.
Qed.

Lemma COMMANDS_keys_are_bytes (k : Z) (name : string) :
  COMMANDS !! k = Some name → 0 ≤ k < 256.
Proof.
  revert k name. change (map_Forall (λ k _, 0 ≤ k < 256) COMMANDS).
  apply (bool_decide_unpack _). vm_compute. reflexivity.
Qed.

(** ** The analyzer *)

Section AnalyzerProperties.

Context {Time : Type} (Time_str : Time → string).

Implicit Types (self : @SpiTransceiver Time) (frame : @InFrame Time).

(** *** The state after a method *)

Lemma reset_spec self : reset self = __init__.
Proof. reflexivity. Qed.

Lemma is_valid_transaction_true self :
  is_valid_transaction self = true ↔
  spi_enable self = true ∧ is_Some (transaction_start_time self).
Proof.
  unfold is_valid_transaction.
  rewrite andb_true_iff, bool_decide_eq_true, not_eq_None_Some.
  reflexivity.
Qed.

Lemma is_valid_transaction_false self :
  is_valid_transaction self = false ↔
  spi_enable self = false ∨ transaction_start_time self = None.
Proof.
  unfold is_valid_transaction.
  rewrite andb_false_iff, bool_decide_eq_false.
  destruct (transaction_start_time self) as [t|]; split; intros [He|Hs];
    first [ by left | by destruct Hs | discriminate | by right
          | right; intros Hn; by apply Hn ].
Qed.

Lemma get_frame_data_loop_mosi (fs : list (@InFrame Time)) (acc : spi_data) :
  mosi (foldl (λ acc frame,
                 {| miso := miso acc ++ miso (data frame);
                    mosi := mosi acc ++ mosi (data frame) |}) acc fs)
  = mosi acc ++ mjoin ((λ f, mosi (data f)) <$> fs).
Proof.
  revert acc. induction fs as [|f fs IH]; intros acc.
  - symmetry. apply app_nil_r.
  - cbn [foldl fmap list_fmap mjoin list_join]. rewrite IH.
    cbn [mosi]. symmetry. apply app_assoc.
Qed.

Lemma get_frame_data_mosi self :
  mosi (get_frame_data self) = mjoin ((λ f, mosi (data f)) <$> frames self).
Proof. unfold get_frame_data. by rewrite get_frame_data_loop_mosi. Qed.

Lemma handle_disable_invalid self frame :
  is_valid_transaction self = false →
  handle_disable Time_str self frame =
    Returned
      (Some (mkAnalyzerFrame "error"
               (Some (start_time frame)) (Some (end_time frame))
               {[ "error_info" :=
                    "Invalid SPI transaction (spi_enable="
                    +:+ str_bool (spi_enable self)
                    +:+ ", transaction_start_time="
                    +:+ str_time Time_str (transaction_start_time self)
                    +:+ ")" ]}))
      (reset self) [].
Proof. intros Hv. unfold handle_disable. by rewrite Hv. Qed.

Lemma handle_disable_valid self frame (cmd : byte) (rest : bytes) :
  is_valid_transaction self = true →
  mosi (get_frame_data self) = cmd :: rest →
  handle_disable Time_str self frame =
    Returned
      (Some (mkAnalyzerFrame "command"
               (transaction_start_time self) (transaction_end_time self)
               {[ "cmd" := dict_get COMMANDS (int_of_byte cmd) "Unknown" ]}))
      (reset self) [].
Proof. intros Hv Hm. unfold handle_disable. by rewrite Hv, Hm. Qed.

Lemma handle_disable_raises self frame :
  is_valid_transaction self = true →
  mosi (get_frame_data self) = [] →
  handle_disable Time_str self frame = Raised IndexError self.
Proof. intros Hv Hm. unfold handle_disable. by rewrite Hv, Hm. Qed.

(** A close that returns leaves the object as [__init__] made it. *)
Lemma handle_disable_returned self frame ret self' out :
  handle_disable Time_str self frame = Returned ret self' out →
  self' = __init__.
Proof.
  unfold handle_disable.
  destruct (is_valid_transaction self); [|by inversion 1].
  destruct (mosi (get_frame_data self)); by inversion 1.
Qed.

(** *** Dispatch *)

Lemma decode_enable self frame :
  type frame = "enable" →
  decode Time_str self frame = Returned None (handle_enable self frame) [].
Proof. intros Ht. unfold decode. by rewrite Ht. Qed.

Lemma decode_result self frame :
  type frame = "result" →
  decode Time_str self frame = Returned None (handle_result self frame) [].
Proof. intros Ht. unfold decode. by rewrite Ht. Qed.

Lemma decode_disable self frame :
  type frame = "disable" →
  decode Time_str self frame = handle_disable Time_str self frame.
Proof. intros Ht. unfold decode. by rewrite Ht. Qed.

Lemma decode_error self frame :
  type frame = "error" →
  decode Time_str self frame = handle_error self frame.
Proof. intros Ht. unfold decode. by rewrite Ht. Qed.

Lemma decode_other self frame :
  type frame ≠ "enable" → type frame ≠ "result" →
  type frame ≠ "disable" → type frame ≠ "error" →
  decode Time_str self frame =
    Returned
      (Some (mkAnalyzerFrame "error"
               (Some (start_time frame)) (Some (end_time frame))
               {[ "error_info" :=
                    "Unexpected frame type from input analyzer: "
                    +:+ type frame ]}))
      self [].
Proof.
  intros H1 H2 H3 H4. unfold decode.
  repeat case_decide; done.
Qed.

(** *** A run of byte frames *)

Lemma handle_result_open self frame :
  spi_enable self = true →
  handle_result self frame =
    {| frames := frames self ++ [frame];
       spi_enable := true;
       transaction_start_time :=
         Some (default (start_time frame) (transaction_start_time self));
       transaction_end_time := Some (end_time frame) |}.
Proof.
  intros He. unfold handle_result. rewrite He.
  by destruct (transaction_start_time self).
Qed.

Lemma handle_result_closed self frame :
  spi_enable self = false → handle_result self frame = self.
Proof. intros He. unfold handle_result. by rewrite He. Qed.

Lemma foldl_handle_result_enable self (fs : list InFrame) :
  spi_enable (foldl handle_result self fs) = spi_enable self.
Proof.
  induction fs as [|f fs IH] using rev_ind; [reflexivity|].
  rewrite foldl_app. cbn [foldl].
  destruct (spi_enable self) eqn:He.
  - rewrite handle_result_open; [reflexivity|by rewrite IH].
  - rewrite handle_result_closed; by rewrite IH.
Qed.

Lemma foldl_handle_result_frames self (fs : list InFrame) :
  spi_enable self = true →
  frames (foldl handle_result self fs) = frames self ++ fs.
Proof.
  intros He. induction fs as [|f fs IH] using rev_ind.
  - symmetry. apply app_nil_r.
  - rewrite foldl_app. cbn [foldl].
    rewrite handle_result_open by (by rewrite foldl_handle_result_enable).
    cbn [frames]. rewrite IH. symmetry. apply app_assoc.
Qed.

Lemma foldl_handle_result_start self (fs : list InFrame) :
  spi_enable self = true →
  transaction_start_time (foldl handle_result self fs) =
    match transaction_start_time self with
    | Some t => Some t
    | None => start_time <$> head fs
    end.
Proof.
  intros He. revert self He. induction fs as [|f fs IH]; intros self He.
  - cbn. by destruct (transaction_start_time self).
  - cbn [foldl]. rewrite IH by (by rewrite handle_result_open).
    rewrite handle_result_open by done. cbn.
    by destruct (transaction_start_time self).
Qed.

Lemma foldl_handle_result_end self (fs : list InFrame) :
  spi_enable self = true →
  transaction_end_time (foldl handle_result self fs) =
    match last fs with
    | Some f => Some (end_time f)
    | None => transaction_end_time self
    end.
Proof.
  intros He. induction fs as [|f fs IH] using rev_ind; [reflexivity|].
  rewrite foldl_app, last_snoc. cbn [foldl].
  by rewrite handle_result_open by (by rewrite foldl_handle_result_enable).
Qed.

(** *** Runs of [decode] *)

Lemma run_app self (l1 l2 : list InFrame) out1 self1 :
  run Time_str self l1 = (out1, self1, None) →
  run Time_str self (l1 ++ l2) =
    let '(out2, self2, e) := run Time_str self1 l2 in
    (out1 ++ out2, self2, e).
Proof.
  revert self out1. induction l1 as [|f l1 IH]; intros self out1.
  - cbn. intros [= <- <-]. by destruct (run Time_str self l2) as [[??]?].
  - cbn [run app].
    destruct (decode Time_str self f) as [ret s' pr|e s']; [|by intros [=]].
    destruct (run Time_str s' l1) as [[o s1] e1] eqn:Hr.
    intros [= <- <- ->]. rewrite (IH _ _ Hr).
    destruct (run Time_str s1 l2) as [[o2 s2] e2].
    by rewrite app_assoc.
Qed.

Lemma run_results self (fs : list InFrame) :
  Forall (λ f, type f = "result") fs →
  run Time_str self fs = ([], foldl handle_result self fs, None).
Proof.
  intros Hfs. revert self.
  induction Hfs as [|f fs Hf _ IH]; intros self; [reflexivity|].
  cbn [run foldl]. rewrite decode_result by done. by rewrite IH.
Qed.

(** One whole session: open, byte frames, close. *)
Lemma run_session self (opening closing : InFrame) (fs : list InFrame) :
  type opening = "enable" →
  Forall (λ f, type f = "result") fs →
  type closing = "disable" →
  run Time_str self (opening :: fs ++ [closing]) =
    match handle_disable Time_str
            (foldl handle_result (handle_enable self opening) fs) closing with
    | Returned ret self' _ => (option_list ret, self', None)
    | Raised e self' => ([], self', Some e)
    end.
Proof.
  intros Ho Hfs Hc. cbn [run]. rewrite decode_enable by done.
  rewrite (run_app _ _ _ _ _ (run_results _ _ Hfs)).
  cbn [run]. rewrite decode_disable by done.
  destruct (handle_disable _ _ _) as [ret s' pr|e s']; [|reflexivity].
  by rewrite !app_nil_r.
Qed.

(** *** Frames that carry bytes *)

Lemma bytes_recorded_init : bytes_recorded (@__init__ Time).
Proof. split; [by intros [? [=]]|constructor]. Qed.

Lemma bytes_recorded_handle_result self frame :
  mosi (data frame) ≠ [] →
  bytes_recorded self → bytes_recorded (handle_result self frame).
Proof.
  intros Hm [Hs Hf]. destruct (spi_enable self) eqn:He.
  - rewrite handle_result_open by done. split; cbn.
    + intros _. by destruct (frames self).
    + apply Forall_app. split; [done|by constructor].
  - by rewrite handle_result_closed.
Qed.

Lemma bytes_recorded_mosi self :
  bytes_recorded self →
  is_valid_transaction self = true →
  mosi (get_frame_data self) ≠ [].
Proof.
  intros [Hs Hf] [_ Ht]%is_valid_transaction_true.
  rewrite get_frame_data_mosi. specialize (Hs Ht).
  destruct (frames self) as [|f fs]; [done|].
  apply Forall_cons_1 in Hf as [Hm _]. cbn.
  by destruct (mosi (data f)).
Qed.

Lemma bytes_recorded_decode self frame :
  (type frame = "result" → mosi (data frame) ≠ []) →
  bytes_recorded self →
  ∃ ret self' out,
    decode Time_str self frame = Returned ret self' out ∧ bytes_recorded self'.
Proof.
  intros Hm Hinv. unfold decode. repeat case_decide.
  - eexists _, _, _. split; [reflexivity|]. apply bytes_recorded_init.
  - eexists _, _, _. split; [reflexivity|].
    by apply bytes_recorded_handle_result; [apply Hm|].
  - destruct (is_valid_transaction self) eqn:Hv.
    + pose proof (bytes_recorded_mosi _ Hinv Hv) as Hne.
      destruct (mosi (get_frame_data self)) as [|cmd tl] eqn:Hd; [done|].
      rewrite (handle_disable_valid _ _ _ _ Hv Hd).
      eexists _, _, _. split; [reflexivity|]. apply bytes_recorded_init.
    + rewrite handle_disable_invalid by done.
      eexists _, _, _. split; [reflexivity|]. apply bytes_recorded_init.
  - by eexists _, _, _.
  - by eexists _, _, _.
Qed.

Lemma bytes_recorded_run self (input : list InFrame) :
  Forall (λ f, type f = "result" → mosi (data f) ≠ []) input →
  bytes_recorded self →
  ∃ out self',
    run Time_str self input = (out, self', None) ∧ bytes_recorded self'.
Proof.
  intros Hin. revert self.
  induction Hin as [|f input Hf _ IH]; intros self Hinv.
  - by exists [], self.
  - destruct (bytes_recorded_decode self f Hf Hinv)
      as (ret & s1 & pr & Hd & Hinv1).
    destruct (IH s1 Hinv1) as (out & s2 & Hr & Hinv2).
    exists (option_list ret ++ out), s2. cbn [run].
    by rewrite Hd, Hr.
Qed.

(** *** Closing a session *)

(** C1.  At a close, [handle_disable] returns exactly one frame and
    leaves the object as [__init__] made it (no frames, not enabled, no
    times).  For a valid session (enabled, start time set) the frame is
    a command with the session's two times; for an invalid one it is an
    error with the close frame's two times and a message that shows
    [spi_enable] and [transaction_start_time].  The bytes of a valid
    session are those of its byte frames, each of which carries a
    host-to-device byte: the hypothesis says so, and it holds after any
    such input ([bytes_recorded_run], [bytes_recorded_mosi]). *)
Theorem handle_disable_one_result self frame :
  (spi_enable self = true → is_Some (transaction_start_time self) →
   mosi (get_frame_data self) ≠ []) →
  ∃ result : OutFrame,
    handle_disable Time_str self frame =
      Returned (Some result)
        {| frames := []; spi_enable := false;
           transaction_start_time := None; transaction_end_time := None |}
        []
    ∧ (spi_enable self = true ∧ is_Some (transaction_start_time self) →
       type result = "command" ∧
       start_time result = transaction_start_time self ∧
       end_time result = transaction_end_time self)
    ∧ (¬ (spi_enable self = true ∧ is_Some (transaction_start_time self)) →
       type result = "error" ∧
       start_time result = Some (start_time frame) ∧
       end_time result = Some (end_time frame) ∧
       ∃ message : string,
         data result !! "error_info" = Some message ∧
         contains message (str_bool (spi_enable self)) ∧
         contains message (str_time Time_str (transaction_start_time self))).
Proof.
  intros Hbytes. destruct (is_valid_transaction self) eqn:Hv.
  - pose proof Hv as [He Hs]%is_valid_transaction_true.
    destruct (mosi (get_frame_data self)) as [|cmd tl] eqn:Hm.
    { by destruct (Hbytes He Hs). }
    eexists. split; [by apply (handle_disable_valid self frame cmd tl)|].
    split; [done|]. intros Hn. by destruct Hn.
  - eexists. split; [by apply handle_disable_invalid|].
    split.
    + intros Hvalid%is_valid_transaction_true. congruence.
    + intros _. cbn. repeat split.
      eexists. split; [apply lookup_singleton_eq|].
      split; [apply contains_here|do 3 apply contains_prepend; apply (contains_here "")].
Qed.


(** C9.  When every byte frame given to the analyzer carries at least
    one host-to-device byte, no call raises; and whenever the session is
    then valid, the joined host-to-device bytes are not empty, so that
    the close finds index 0 and returns a frame. *)
Theorem index0_in_range (input : list InFrame) :
  Forall (λ f, type f = "result" → mosi (data f) ≠ []) input →
  ∃ (out : list OutFrame) self,
    run Time_str __init__ input = (out, self, None)
    ∧ (is_valid_transaction self = true →
       mosi (get_frame_data self) ≠ []
       ∧ ∀ closing, ∃ result,
           handle_disable Time_str self closing
           = Returned (Some result) (reset self) []).
Proof.
  intros Hin.
  destruct (bytes_recorded_run __init__ input Hin bytes_recorded_init)
    as (out & self & Hrun & Hinv).
  exists out, self. split; [done|]. intros Hv.
  pose proof (bytes_recorded_mosi self Hinv Hv) as Hne.
  split; [done|]. intros closing.
  destruct (mosi (get_frame_data self)) as [|cmd tl] eqn:Hm; [done|].
  eexists. by apply (handle_disable_valid self closing cmd tl).
Qed.

(** C10.  Two sessions whose byte frames agree on the first
    host-to-device byte, on the first frame's start time and on the last
    frame's end time close with the same command frame, whatever the
    device-to-host bytes, the later host-to-device bytes, the close
    frames and the objects the sessions were opened on. *)
Theorem close_depends_on_first_byte
    self1 self2 (opening1 opening2 closing1 closing2 : InFrame)
    (first1 first2 : InFrame) (rest1 rest2 : list InFrame)
    (cmd : byte) (tail1 tail2 : bytes) :
  mjoin ((λ f, mosi (data f)) <$> first1 :: rest1) = cmd :: tail1 →
  mjoin ((λ f, mosi (data f)) <$> first2 :: rest2) = cmd :: tail2 →
  start_time first1 = start_time first2 →
  end_time <$> last (first1 :: rest1) = end_time <$> last (first2 :: rest2) →
  ∃ result : OutFrame,
    type result = "command"
    ∧ handle_disable Time_str
        (foldl handle_result (handle_enable self1 opening1) (first1 :: rest1))
        closing1
      = Returned (Some result) __init__ []
    ∧ handle_disable Time_str
        (foldl handle_result (handle_enable self2 opening2) (first2 :: rest2))
        closing2
      = Returned (Some result) __init__ [].
Proof.
  intros Hm1 Hm2 Hstart Hend.
  set (s1 := foldl handle_result (handle_enable self1 opening1) (first1 :: rest1)).
  set (s2 := foldl handle_result (handle_enable self2 opening2) (first2 :: rest2)).
  assert (Hs : ∀ self opening (f : InFrame) fs,
             let s := foldl handle_result (handle_enable self opening) (f :: fs) in
             spi_enable s = true
             ∧ frames s = f :: fs
             ∧ transaction_start_time s = Some (start_time f)
             ∧ transaction_end_time s = end_time <$> last (f :: fs)).
  { intros self opening f fs s. subst s. repeat split.
    - by rewrite foldl_handle_result_enable.
    - by rewrite foldl_handle_result_frames.
    - by rewrite foldl_handle_result_start.
    - rewrite foldl_handle_result_end by done.
      by destruct (last (f :: fs)) eqn:Hl; [|apply last_None in Hl]. }
  destruct (Hs self1 opening1 first1 rest1) as (He1 & Hf1 & Hs1 & Ht1).
  destruct (Hs self2 opening2 first2 rest2) as (He2 & Hf2 & Hs2 & Ht2).
  fold s1 in He1, Hf1, Hs1, Ht1. fold s2 in He2, Hf2, Hs2, Ht2.
  assert (Hv1 : is_valid_transaction s1 = true).
  { apply is_valid_transaction_true. by rewrite He1, Hs1. }
  assert (Hv2 : is_valid_transaction s2 = true).
  { apply is_valid_transaction_true. by rewrite He2, Hs2. }
  eexists. split; [|split].
  2: { rewrite (handle_disable_valid s1 closing1 cmd tail1 Hv1)
         by (by rewrite get_frame_data_mosi, Hf1).
       reflexivity. }
  { reflexivity. }
  rewrite (handle_disable_valid s2 closing2 cmd tail2 Hv2)
    by (by rewrite get_frame_data_mosi, Hf2).
  by rewrite Hs1, Hs2, Ht1, Ht2, Hstart, Hend.
Qed.

(** *** Byte frames *)

(** C3.  In a session, the first byte frame sets the start time to its
    own start time and no later byte frame changes it; every byte frame
    sets the end time to its own end time.  So after the byte frames
    [first :: rest] the start time is that of [first] and the end time
    that of the last frame. *)
Theorem handle_result_session_times
    self (opening first : InFrame) (rest : list InFrame) :
  let session :=
    foldl handle_result (handle_enable self opening) (first :: rest) in
  transaction_start_time (handle_result (handle_enable self opening) first)
    = Some (start_time first)
  ∧ transaction_start_time session = Some (start_time first)
  ∧ transaction_end_time session = end_time <$> last (first :: rest)
  ∧ ∀ next : InFrame,
      transaction_start_time (handle_result session next)
        = transaction_start_time session
      ∧ transaction_end_time (handle_result session next)
        = Some (end_time next).
Proof.
  intros session.
  assert (He : spi_enable session = true).
  { subst session. by rewrite foldl_handle_result_enable. }
  assert (Hs : transaction_start_time session = Some (start_time first)).
  { subst session. by rewrite foldl_handle_result_start. }
  split; [reflexivity|]. split; [exact Hs|]. split.
  - subst session. rewrite foldl_handle_result_end by done.
    by destruct (last (first :: rest)) eqn:Hl; [|apply last_None in Hl].
  - intros next. clearbody session.
    rewrite handle_result_open by done. cbn. by rewrite Hs.
Qed.

(** C4.  A byte frame given to an object that is not enabled, and so
    any byte frame that comes after a close with no open in between, is
    dropped: [decode] returns [None], prints nothing, and the object is
    the same in every attribute. *)
Theorem handle_result_dropped_when_inactive self frame :
  (spi_enable self = false
   ∨ ∃ before closing ret out,
       handle_disable Time_str before closing = Returned ret self out) →
  type frame = "result" →
  decode Time_str self frame = Returned None self []
  ∧ handle_result self frame = self.
Proof.
  intros Hidle Ht.
  assert (He : spi_enable self = false).
  { destruct Hidle as [He|(before & closing & ret & out & Hd)]; [done|].
    by rewrite (handle_disable_returned _ _ _ _ _ Hd). }
  rewrite decode_result by done.
  by rewrite handle_result_closed.
Qed.

(** *** Opening a session *)

(** C5.  An open frame, whatever the object held (an open session
    included), returns [None], prints nothing, and leaves the object
    enabled with no frames and no times. *)
Theorem handle_enable_resets self frame :
  type frame = "enable" →
  decode Time_str self frame =
    Returned None
      {| frames := []; spi_enable := true;
         transaction_start_time := None; transaction_end_time := None |}
      []
  ∧ handle_enable self frame =
      {| frames := []; spi_enable := true;
         transaction_start_time := None; transaction_end_time := None |}.
Proof. intros Ht. by rewrite decode_enable. Qed.

(** *** Other frames *)

(** C6.  A frame whose type is none of ["enable"], ["result"],
    ["disable"], ["error"] makes [decode] return one error frame with
    the frame's two times and a message that contains the frame's type;
    the object is unchanged. *)
Theorem decode_unexpected_type self frame :
  type frame ≠ "enable" → type frame ≠ "result" →
  type frame ≠ "disable" → type frame ≠ "error" →
  ∃ message : string,
    decode Time_str self frame =
      Returned
        (Some (mkAnalyzerFrame "error"
                 (Some (start_time frame)) (Some (end_time frame))
                 {[ "error_info" := message ]}))
        self []
    ∧ contains message (type frame).
Proof.
  intros H1 H2 H3 H4. eexists. split; [by apply decode_other|].
  apply contains_suffix.
Qed.

(** C7.  An ["error"] frame returns [None]: it prints one line and
    changes nothing.  [decode] hands back no frame for an open, a byte
    or an ["error"] frame, and exactly one for a close and for a frame
    of any other type.  At a close the bytes of a valid session are
    those of its byte frames, each of which carries a host-to-device
    byte: the hypothesis says so, and it holds after any such input
    ([bytes_recorded_run], [bytes_recorded_mosi]). *)
Theorem decode_emitted self frame :
  (type frame = "disable" → is_valid_transaction self = true →
   mosi (get_frame_data self) ≠ []) →
  (type frame = "error" →
   decode Time_str self frame =
     Returned None self ["Received 'error' type from input analyzer"])
  ∧ (type frame = "enable" ∨ type frame = "result" ∨ type frame = "error" →
     emitted (decode Time_str self frame) = 0%nat)
  ∧ (type frame ≠ "enable" → type frame ≠ "result" → type frame ≠ "error" →
     emitted (decode Time_str self frame) = 1%nat).
Proof.
  intros Hbytes. split; [|split].
  - intros Ht. by rewrite decode_error.
  - intros [Ht|[Ht|Ht]].
    + by rewrite decode_enable.
    + by rewrite decode_result.
    + by rewrite decode_error.
  - intros H1 H2 H3. destruct (decide (type frame = "disable")) as [Hd|Hd].
    + rewrite decode_disable by done.
      destruct (is_valid_transaction self) eqn:Hv.
      * specialize (Hbytes Hd eq_refl).
        destruct (mosi (get_frame_data self)) as [|cmd tl] eqn:Hm; [done|].
        by rewrite (handle_disable_valid self frame cmd tl).
      * by rewrite handle_disable_invalid.
    + by rewrite decode_other.
Qed.

End AnalyzerProperties.

(** ** The size of the command table *)

(** C8, amended.  [COMMANDS] maps opcode bytes to names and has exactly
    40 entries. *)
Theorem COMMANDS_entries :
  size COMMANDS = 40%nat
  ∧ map_Forall (λ (k : Z) (_ : string), 0 ≤ k < 256) COMMANDS
  ∧ map_to_list COMMANDS ≡ₚ COMMANDS_items.
Proof.
  split; [exact COMMANDS_size|]. split.
  - intros k name. apply COMMANDS_keys_are_bytes.
  - rewrite COMMANDS_list_to_map.
    apply map_to_list_to_map, COMMANDS_keys_NoDup.
Qed.

(** C8 as the specification has it: the table does not have 41 entries. *)
Lemma COMMANDS_not_41_entries : size COMMANDS ≠ 41%nat.
Proof. rewrite COMMANDS_size. discriminate. Qed.

(** ** The analyzer on a concrete host *)

(** The scenarios of the specification. *)

Example get_status_session :
  run ns_str __init__ [ns_enable; ns_get_status; ns_disable]
  = ([mkAnalyzerFrame "command" (Some 100) (Some 108) {[ "cmd" := "GetStatus" ]}],
     __init__, None).
Proof. vm_compute. reflexivity. Qed.

Example set_standby_session :
  run ns_str __init__
    [ns_enable;
     ns_frame "result" 10 18 [Byte.x00] [Byte.x80];
     ns_frame "result" 20 28 [Byte.x00] [Byte.x01];
     ns_frame "result" 30 38 [Byte.x00] [Byte.x02];
     ns_disable]
  = ([mkAnalyzerFrame "command" (Some 10) (Some 38) {[ "cmd" := "SetStandby" ]}],
     __init__, None).
Proof. vm_compute. reflexivity. Qed.

Example unknown_opcode_session :
  run ns_str __init__
    [ns_enable; ns_frame "result" 10 18 [Byte.x00] [Byte.xff]; ns_disable]
  = ([mkAnalyzerFrame "command" (Some 10) (Some 18) {[ "cmd" := "Unknown" ]}],
     __init__, None).
Proof. vm_compute. reflexivity. Qed.

Example close_without_open :
  run ns_str __init__ [ns_disable]
  = ([mkAnalyzerFrame "error" (Some 200) (Some 200)
        {[ "error_info" :=
             "Invalid SPI transaction (spi_enable=False, transaction_start_time=None)" ]}],
     __init__, None).
Proof. vm_compute. reflexivity. Qed.

Example open_then_close :
  run ns_str __init__ [ns_enable; ns_disable]
  = ([mkAnalyzerFrame "error" (Some 200) (Some 200)
        {[ "error_info" :=
             "Invalid SPI transaction (spi_enable=True, transaction_start_time=None)" ]}],
     __init__, None).
Proof. vm_compute. reflexivity. Qed.

Example trigger_frame :
  decode ns_str ns_open_get_status ns_trigger
  = Returned
      (Some (mkAnalyzerFrame "error" (Some 7) (Some 9)
               {[ "error_info" :=
                    "Unexpected frame type from input analyzer: trigger" ]}))
      ns_open_get_status [].
Proof. vm_compute. reflexivity. Qed.

Example open_without_bytes_reached :
  run ns_str __init__ [ns_enable; ns_empty_result]
  = ([], ns_open_without_bytes, None).
Proof. vm_compute. reflexivity. Qed.

(** The theorems at concrete frames. *)

Lemma handle_disable_one_result_witness :
  mosi (get_frame_data ns_open_get_status) ≠ []
  ∧ ∃ result : OutFrame,
      handle_disable ns_str ns_open_get_status ns_disable
      = Returned (Some result) __init__ []
      ∧ type result = "command"
      ∧ start_time result = Some 100
      ∧ end_time result = Some 108.
Proof.
  assert (Hb : mosi (get_frame_data ns_open_get_status) ≠ [])
    by (vm_compute; discriminate).
  split; [exact Hb|].
  destruct (handle_disable_one_result ns_str ns_open_get_status ns_disable
              (λ _ _, Hb)) as (result & Hd & Hc & _).
  exists result. split; [exact Hd|].
  apply Hc. split; [reflexivity|]. by eexists.
Defined.


Lemma index0_in_range_witness :
  Forall (λ f : InFrame, type f = "result" → mosi (data f) ≠ [])
    [ns_enable; ns_get_status]
  ∧ ∃ (out : list OutFrame) (self : SpiTransceiver),
      run ns_str __init__ [ns_enable; ns_get_status] = (out, self, None)
      ∧ (is_valid_transaction self = true →
         mosi (get_frame_data self) ≠ []
         ∧ ∀ closing, ∃ result,
             handle_disable ns_str self closing
             = Returned (Some result) (reset self) []).
Proof.
  assert (Hin : Forall (λ f : @InFrame Z, type f = "result" → mosi (data f) ≠ [])
                  [ns_enable; ns_get_status]).
  { constructor; [intros [=]|].
    constructor; [intros _; vm_compute; discriminate|].
    constructor. }
  split; [exact Hin|].
  apply (index0_in_range ns_str [ns_enable; ns_get_status] Hin).
Defined.

Lemma close_depends_on_first_byte_witness :
  ∃ result : OutFrame,
    type result = "command"
    ∧ handle_disable ns_str
        (foldl handle_result (handle_enable __init__ ns_enable)
           [ns_frame "result" 10 18 [Byte.x00] [Byte.x80];
            ns_frame "result" 20 28 [Byte.x00] [Byte.x01]])
        ns_disable
      = Returned (Some result) __init__ []
    ∧ handle_disable ns_str
        (foldl handle_result (handle_enable ns_open_get_status ns_enable)
           [ns_frame "result" 10 11 [Byte.xff] [Byte.x80; Byte.x07];
            ns_frame "result" 12 13 [] [];
            ns_frame "result" 14 28 [Byte.xaa] [Byte.x09]])
        ns_trigger
      = Returned (Some result) __init__ [].
Proof.
  apply (close_depends_on_first_byte ns_str
           __init__ ns_open_get_status ns_enable ns_enable ns_disable ns_trigger
           (ns_frame "result" 10 18 [Byte.x00] [Byte.x80])
           (ns_frame "result" 10 11 [Byte.xff] [Byte.x80; Byte.x07])
           [ns_frame "result" 20 28 [Byte.x00] [Byte.x01]]
           [ns_frame "result" 12 13 [] [];
            ns_frame "result" 14 28 [Byte.xaa] [Byte.x09]]
           Byte.x80 [Byte.x01] [Byte.x07; Byte.x09]);
    reflexivity.
Defined.

Lemma handle_result_dropped_when_inactive_witness :
  handle_disable ns_str ns_open_get_status ns_disable
    = Returned
        (Some (mkAnalyzerFrame "command" (Some 100) (Some 108)
                 {[ "cmd" := "GetStatus" ]}))
        __init__ []
  ∧ type ns_get_status = "result"
  ∧ decode ns_str __init__ ns_get_status = Returned None __init__ []
  ∧ handle_result __init__ ns_get_status = __init__.
Proof.
  assert (Hd : handle_disable ns_str ns_open_get_status ns_disable
               = Returned
                   (Some (mkAnalyzerFrame "command" (Some 100) (Some 108)
                            {[ "cmd" := "GetStatus" ]}))
                   __init__ [])
    by (vm_compute; reflexivity).
  split; [exact Hd|]. split; [reflexivity|].
  apply (handle_result_dropped_when_inactive ns_str __init__ ns_get_status);
    [|reflexivity].
  right. eexists _, _, _, _. exact Hd.
Defined.

Lemma handle_enable_resets_witness :
  type ns_enable = "enable"
  ∧ decode ns_str ns_open_get_status ns_enable
    = Returned None
        {| frames := []; spi_enable := true;
           transaction_start_time := None; transaction_end_time := None |}
        []
  ∧ handle_enable ns_open_get_status ns_enable
    = {| frames := []; spi_enable := true;
         transaction_start_time := None; transaction_end_time := None |}.
Proof.
  split; [reflexivity|].
  apply (handle_enable_resets ns_str ns_open_get_status ns_enable).
  reflexivity.
Defined.

Lemma decode_unexpected_type_witness :
  ∃ message : string,
    decode ns_str ns_open_get_status ns_trigger
    = Returned
        (Some (mkAnalyzerFrame "error" (Some 7) (Some 9)
                 {[ "error_info" := message ]}))
        ns_open_get_status []
    ∧ contains message "trigger".
Proof.
  apply (decode_unexpected_type ns_str ns_open_get_status ns_trigger);
    vm_compute; discriminate.
Defined.

Lemma decode_emitted_witness :
  mosi (get_frame_data ns_open_get_status) ≠ []
  ∧ emitted (decode ns_str ns_open_get_status ns_disable) = 1%nat.
Proof.
  assert (Hb : mosi (get_frame_data ns_open_get_status) ≠ [])
    by (vm_compute; discriminate).
  split; [exact Hb|].
  destruct (decode_emitted ns_str ns_open_get_status ns_disable (λ _ _, Hb))
    as (_ & _ & Hone).
  apply Hone; vm_compute; discriminate.
Defined.

(** ** More on the tables *)

Lemma REGISTERS_list_to_map : REGISTERS = list_to_map REGISTERS_items.
Proof. vm_compute. reflexivity. Qed.

Lemma REGISTERS_keys_NoDup : NoDup (REGISTERS_items.*1).
Proof. apply (bool_decide_unpack _). vm_compute. reflexivity. Qed.

(** X1.  No opcode is named ["Unknown"], so [COMMANDS.get(k, "Unknown")]
    is ["Unknown"] exactly when [k] has no entry. *)
Theorem COMMANDS_unknown_iff_absent (k : Z) :
  dict_get COMMANDS k "Unknown" = "Unknown" ↔ COMMANDS !! k = None.
Proof.
  assert (Hall : map_Forall (λ (_ : Z) (n : string), n ≠ "Unknown") COMMANDS).
  { apply (bool_decide_unpack _). vm_compute. reflexivity. }
  unfold dict_get. destruct (COMMANDS !! k) as [n|] eqn:Hk; cbn.
  - split; [|discriminate]. intros ->. by destruct (Hall k _ Hk).
  - done.
Qed.

(** X2.  Two different opcodes never have the same name: the name the
    analyzer shows identifies the opcode. *)
Theorem COMMANDS_names_distinct (k1 k2 : Z) (name : string) :
  COMMANDS !! k1 = Some name → COMMANDS !! k2 = Some name → k1 = k2.
Proof.
  assert (Hall : map_Forall (λ (a : Z) (n : string),
                    map_Forall (λ (b : Z) (m : string), n = m → a = b) COMMANDS)
                   COMMANDS).
  { apply (bool_decide_unpack _). vm_compute. reflexivity. }
  intros H1 H2. exact (Hall k1 name H1 k2 name H2 eq_refl).
Qed.

(** X3.  [REGISTERS] has 21 entries, one for each pair of its literal;
    every address fits in 16 bits and no two addresses share a name. *)
Theorem REGISTERS_entries :
  size REGISTERS = 21%nat
  ∧ map_to_list REGISTERS ≡ₚ REGISTERS_items
  ∧ map_Forall (λ (k : Z) (_ : string), 0 ≤ k < 65536) REGISTERS
  ∧ map_Forall (λ (a : Z) (n : string),
       map_Forall (λ (b : Z) (m : string), n = m → a = b) REGISTERS)
      REGISTERS.
Proof.
  split; [|split; [|split]].
  - rewrite REGISTERS_list_to_map.
    rewrite (map_size_list_to_map (M := gmap Z)); [reflexivity|].
    apply REGISTERS_keys_NoDup.
  - rewrite REGISTERS_list_to_map.
    apply map_to_list_to_map, REGISTERS_keys_NoDup.
  - apply (bool_decide_unpack _). vm_compute. reflexivity.
  - apply (bool_decide_unpack _). vm_compute. reflexivity.
Qed.

(** ** More on the analyzer *)

Section AnalyzerMore.

Context {Time : Type} (Time_str : Time → string).

Implicit Types (self : @SpiTransceiver Time) (frame : @InFrame Time).

(** *** The joined bytes *)

Lemma get_frame_data_loop (fs : list (@InFrame Time)) (acc : spi_data) :
  foldl (λ acc frame,
           {| miso := miso acc ++ miso (data frame);
              mosi := mosi acc ++ mosi (data frame) |}) acc fs
  = {| miso := miso acc ++ mjoin ((λ f, miso (data f)) <$> fs);
       mosi := mosi acc ++ mjoin ((λ f, mosi (data f)) <$> fs) |}.
Proof.
  revert acc. induction fs as [|f fs IH]; intros acc.
  - destruct acc as [mi mo]. cbn. by rewrite !app_nil_r.
  - cbn [foldl fmap list_fmap mjoin list_join]. rewrite IH.
    cbn [miso mosi]. by rewrite <- !app_assoc.
Qed.

(** X4.  [get_frame_data] returns, for each direction, the bytes of the
    kept frames joined in the order the frames came; with no frame kept
    both are empty. *)
Theorem get_frame_data_concat self :
  get_frame_data self
  = {| miso := mjoin ((λ f, miso (data f)) <$> frames self);
       mosi := mjoin ((λ f, mosi (data f)) <$> frames self) |}.
Proof. unfold get_frame_data. by rewrite get_frame_data_loop. Qed.

(** X5.  While a session is open, a byte frame adds its bytes at the end
    of what [get_frame_data] returns and changes nothing before them. *)
Theorem get_frame_data_handle_result self frame :
  spi_enable self = true →
  get_frame_data (handle_result self frame)
  = {| miso := miso (get_frame_data self) ++ miso (data frame);
       mosi := mosi (get_frame_data self) ++ mosi (data frame) |}.
Proof.
  intros He. rewrite handle_result_open by done.
  unfold get_frame_data. cbn [frames]. by rewrite foldl_app.
Qed.

(** *** When a call raises *)

(** X6.  [decode] raises only at a close of a valid session that holds
    no host-to-device byte; the exception is then [IndexError] and the
    object is left as it was, frames and times included. *)
Theorem decode_raises_iff self frame (e : exception) self' :
  decode Time_str self frame = Raised e self'
  ↔ type frame = "disable"
    ∧ is_valid_transaction self = true
    ∧ mosi (get_frame_data self) = []
    ∧ e = IndexError ∧ self' = self.
Proof.
  split.
  - unfold decode. repeat case_decide; try discriminate.
    unfold handle_disable.
    destruct (is_valid_transaction self); [|discriminate].
    destruct (mosi (get_frame_data self)); [|discriminate].
    by intros [= <- <-].
  - intros (Ht & Hv & Hm & -> & ->).
    rewrite decode_disable by done. by apply handle_disable_raises.
Qed.

(** *** What holds between two calls *)

Lemma consistent_init : consistent (@__init__ Time).
Proof. by repeat split. Qed.

Lemma consistent_handle_enable self frame :
  consistent (handle_enable self frame).
Proof. by repeat split. Qed.

Lemma consistent_handle_result self frame :
  type frame = "result" →
  consistent self → consistent (handle_result self frame).
Proof.
  intros Ht Hc. pose proof Hc as (Hoff & Hres & Hs & He).
  destruct (spi_enable self) eqn:Hen; [|by rewrite handle_result_closed].
  rewrite handle_result_open by done. repeat split; cbn.
  - discriminate.
  - apply Forall_app. split; [done|by constructor].
  - rewrite Hs. by destruct (frames self).
  - by rewrite last_snoc.
Qed.

Lemma consistent_decode self frame :
  consistent self → consistent (state_after (decode Time_str self frame)).
Proof.
  intros Hc. unfold decode. repeat case_decide; cbn.
  - apply consistent_handle_enable.
  - by apply consistent_handle_result.
  - unfold handle_disable. destruct (is_valid_transaction self).
    + destruct (mosi (get_frame_data self)); [done|apply consistent_init].
    + apply consistent_init.
  - done.
  - done.
Qed.

Lemma consistent_run self (input : list InFrame) :
  consistent self → consistent (run Time_str self input).1.2.
Proof.
  revert self. induction input as [|f input IH]; intros self Hc; [done|].
  cbn [run]. pose proof (consistent_decode self f Hc) as Hd.
  destruct (decode Time_str self f) as [ret s1 pr|e s1]; [|done].
  specialize (IH s1 Hd).
  by destruct (run Time_str s1 input) as [[out s2] e2].
Qed.

(** X7.  Whatever frames the analyzer is given after it is made, and
    also when a call has raised, it keeps frames only while enabled,
    keeps byte frames only, and its two times are the start time of the
    first kept frame and the end time of the last (both absent when no
    frame is kept). *)
Theorem run_consistent (input : list InFrame) :
  consistent (run Time_str __init__ input).1.2.
Proof. apply consistent_run, consistent_init. Qed.

Lemma consistent_valid_times self :
  consistent self → is_valid_transaction self = true →
  is_Some (transaction_start_time self)
  ∧ is_Some (transaction_end_time self).
Proof.
  intros (_ & _ & Hs & He) [_ Hst]%is_valid_transaction_true.
  split; [done|]. rewrite He. rewrite Hs in Hst.
  destruct (frames self) as [|f fs] using rev_ind.
  - by destruct Hst.
  - rewrite last_snoc. by eexists.
Qed.

Lemma decode_times self frame (r : OutFrame) self' out :
  consistent self →
  decode Time_str self frame = Returned (Some r) self' out →
  is_Some (start_time r) ∧ is_Some (end_time r).
Proof.
  intros Hc. unfold decode. repeat case_decide; try discriminate.
  - unfold handle_disable.
    destruct (is_valid_transaction self) eqn:Hv.
    + destruct (mosi (get_frame_data self)); [discriminate|].
      intros [= <- _ _]. by apply consistent_valid_times.
    + intros [= <- _ _]. cbn. by split; eexists.
  - intros [= <- _ _]. cbn. by split; eexists.
Qed.

Lemma run_times self (input : list InFrame) :
  consistent self →
  Forall (λ r : OutFrame, is_Some (start_time r) ∧ is_Some (end_time r))
    (run Time_str self input).1.1.
Proof.
  revert self. induction input as [|f input IH]; intros self Hc.
  { constructor. }
  cbn [run]. pose proof (consistent_decode self f Hc) as Hd.
  pose proof (decode_times self f) as Ht.
  destruct (decode Time_str self f) as [ret s1 pr|e s1]; [|constructor].
  specialize (IH s1 Hd).
  destruct (run Time_str s1 input) as [[out s2] e2]. cbn in *.
  apply Forall_app. split; [|done].
  destruct ret as [r|]; [|constructor].
  constructor; [|constructor]. by eapply Ht.
Qed.

(** X8.  Every frame the analyzer hands back, over any input given
    after it is made, has a start time and an end time: [None] never
    gets into a frame. *)
Theorem run_frames_have_times (input : list InFrame) :
  Forall (λ r : OutFrame, is_Some (start_time r) ∧ is_Some (end_time r))
    (run Time_str __init__ input).1.1.
Proof. apply run_times, consistent_init. Qed.

(** X9.  A frame that [decode] returns is of a type declared in
    [result_types], and its [data] has exactly the key the format of
    that type shows: [cmd] for a command, [error_info] for an error. *)
Theorem decode_result_type_declared self frame (r : OutFrame) self' out :
  decode Time_str self frame = Returned (Some r) self' out →
  is_Some (result_types !! type r)
  ∧ ((type r = "command" ∧ dom (data r) = {[ "cmd" ]}
      ∧ result_types !! "command" = Some {[ "format" := "{{data.cmd}}" ]})
     ∨ (type r = "error" ∧ dom (data r) = {[ "error_info" ]}
        ∧ result_types !! "error"
          = Some {[ "format" := "ERROR: {{data.error_info}}" ]})).
Proof.
  unfold decode. repeat case_decide; try discriminate.
  - unfold handle_disable. destruct (is_valid_transaction self).
    + destruct (mosi (get_frame_data self)); [discriminate|].
      intros [= <- _ _]. cbn. split; [by eexists|].
      left. by rewrite dom_singleton_L.
    + intros [= <- _ _]. cbn. split; [by eexists|].
      right. by rewrite dom_singleton_L.
  - intros [= <- _ _]. cbn. split; [by eexists|].
    right. by rewrite dom_singleton_L.
Qed.

(** *** Whole inputs *)

Lemma decode_returns_frame_iff self frame ret self' out :
  decode Time_str self frame = Returned ret self' out →
  length (option_list ret)
  = length (filter (λ f : InFrame,
                      type f ≠ "enable" ∧ type f ≠ "result" ∧ type f ≠ "error")
                   [frame]).
Proof.
  intros Hd.
  destruct (decide (type frame = "enable")) as [Ht|H1].
  { rewrite decode_enable in Hd by done. injection Hd as <- _ _.
    rewrite filter_cons_False; [done|]. by intros (? & _). }
  destruct (decide (type frame = "result")) as [Ht|H2].
  { rewrite decode_result in Hd by done. injection Hd as <- _ _.
    rewrite filter_cons_False; [done|]. by intros (_ & ? & _). }
  destruct (decide (type frame = "error")) as [Ht|H3].
  { rewrite decode_error in Hd by done. injection Hd as <- _ _.
    rewrite filter_cons_False; [done|]. by intros (_ & _ & ?). }
  rewrite filter_cons_True by done.
  destruct (decide (type frame = "disable")) as [Ht|H4].
  - rewrite decode_disable in Hd by done. unfold handle_disable in Hd.
    destruct (is_valid_transaction self).
    + destruct (mosi (get_frame_data self)); [discriminate|].
      by injection Hd as <- _ _.
    + by injection Hd as <- _ _.
  - rewrite decode_other in Hd by done. by injection Hd as <- _ _.
Qed.

(** X10.  Over an input on which no call raises, the analyzer hands
    back exactly one frame for each frame that is neither an open, nor
    a byte frame, nor an ["error"] frame (so for each close and each
    frame of an unexpected type), and none for the others. *)
Theorem run_one_frame_per_close self (input : list InFrame)
    (out : list OutFrame) self' :
  run Time_str self input = (out, self', None) →
  length out
  = length (filter (λ f : InFrame,
                      type f ≠ "enable" ∧ type f ≠ "result" ∧ type f ≠ "error")
                   input).
Proof.
  revert self out. induction input as [|f input IH]; intros self out.
  { cbn. by intros [= <- _]. }
  cbn [run]. destruct (decode Time_str self f) as [ret s1 pr|e s1] eqn:Hd;
    [|discriminate].
  destruct (run Time_str s1 input) as [[o s2] e2] eqn:Hr.
  intros [= <- <- ->].
  change (f :: input) with ([f] ++ input).
  rewrite filter_app, !length_app, (IH _ _ Hr).
  f_equal. exact (decode_returns_frame_iff _ _ _ _ _ Hd).
Qed.

Lemma run_session_valid self (opening closing first : InFrame)
    (rest : list InFrame) (cmd : byte) (tail : bytes) :
  type opening = "enable" →
  Forall (λ f, type f = "result") (first :: rest) →
  type closing = "disable" →
  mjoin ((λ f, mosi (data f)) <$> first :: rest) = cmd :: tail →
  run Time_str self (opening :: (first :: rest) ++ [closing])
  = ([mkAnalyzerFrame "command"
        (Some (start_time first))
        (Some (end_time (default first (last rest))))
        {[ "cmd" := dict_get COMMANDS (int_of_byte cmd) "Unknown" ]}],
     __init__, None).
Proof.
  intros Ho Hfs Hc Hm. rewrite run_session by done.
  set (s := foldl handle_result (handle_enable self opening) (first :: rest)).
  assert (He : spi_enable s = true).
  { subst s. by rewrite foldl_handle_result_enable. }
  assert (Hf : frames s = first :: rest).
  { subst s. by rewrite foldl_handle_result_frames. }
  assert (Hs : transaction_start_time s = Some (start_time first)).
  { subst s. by rewrite foldl_handle_result_start. }
  assert (Ht : transaction_end_time s
               = Some (end_time (default first (last rest)))).
  { subst s. rewrite foldl_handle_result_end by done.
    rewrite last_cons. by destruct (last rest). }
  assert (Hv : is_valid_transaction s = true).
  { apply is_valid_transaction_true. by rewrite He, Hs. }
  clearbody s.
  rewrite (handle_disable_valid Time_str s closing cmd tail Hv)
    by (by rewrite get_frame_data_mosi, Hf).
  cbn. by rewrite Hs, Ht.
Qed.

(** X11.  A whole session run through [decode] from any object: an
    open, byte frames [first :: rest] whose joined host-to-device bytes
    begin with [cmd], and a close, hand back one command frame and no
    other: its name is [COMMANDS.get(cmd, "Unknown")] and its times are
    the start of [first] and the end of the last byte frame; the object
    ends as [__init__] made it. *)
Theorem run_session_command self (opening closing first : InFrame)
    (rest : list InFrame) (cmd : byte) (tail : bytes) :
  type opening = "enable" →
  Forall (λ f, type f = "result") (first :: rest) →
  type closing = "disable" →
  mjoin ((λ f, mosi (data f)) <$> first :: rest) = cmd :: tail →
  run Time_str self (opening :: (first :: rest) ++ [closing])
  = ([mkAnalyzerFrame "command"
        (Some (start_time first))
        (Some (end_time (default first (last rest))))
        {[ "cmd" := dict_get COMMANDS (int_of_byte cmd) "Unknown" ]}],
     __init__, None).
Proof. apply run_session_valid. Qed.

(** X12.  A session that is opened again before it is closed leaves no
    trace: what the analyzer does from the second open on depends
    neither on the byte frames of the first session nor on the object
    the first session was opened on. *)
Theorem reopen_forgets self1 self2 (opening reopening : InFrame)
    (fs rest : list InFrame) :
  type opening = "enable" →
  Forall (λ f, type f = "result") fs →
  type reopening = "enable" →
  run Time_str self1 (opening :: fs ++ reopening :: rest)
  = run Time_str self2 (reopening :: rest).
Proof.
  intros Ho Hfs Hr. cbn [run]. rewrite (decode_enable _ self1) by done.
  rewrite (run_app _ _ _ _ _ _ (run_results _ _ _ Hfs)).
  cbn [run]. rewrite !decode_enable by done.
  change (handle_enable self2 reopening)
    with (handle_enable
            (foldl handle_result (handle_enable self1 opening) fs) reopening).
  destruct (run Time_str _ rest) as [[o s] e]. by cbn.
Qed.

(** X13.  Over any input given after the analyzer is made, a close of
    an invalid session hands back an error frame whose message shows
    [spi_enable] and always shows the start time as [None]: the message
    is one of two fixed texts and never shows a time. *)
Theorem invalid_close_message (input : list InFrame) (closing : InFrame) :
  let self := (run Time_str __init__ input).1.2 in
  is_valid_transaction self = false →
  handle_disable Time_str self closing
  = Returned
      (Some (mkAnalyzerFrame "error"
               (Some (start_time closing)) (Some (end_time closing))
               {[ "error_info" :=
                    "Invalid SPI transaction (spi_enable="
                    +:+ str_bool (spi_enable self)
                    +:+ ", transaction_start_time=None)" ]}))
      __init__ [].
Proof.
  intros self Hv.
  pose proof (consistent_run __init__ input consistent_init)
    as (Hoff & _ & Hs & _).
  fold self in Hoff, Hs. clearbody self.
  rewrite handle_disable_invalid by done.
  assert (Hn : transaction_start_time self = None).
  { apply is_valid_transaction_false in Hv as [He|Hn]; [|done].
    by rewrite Hs, (Hoff He). }
  by rewrite Hn.
Qed.

(** X14.  Every entry of [COMMANDS] can be shown: its opcode is a byte,
    and a session of one byte frame that carries this byte on the
    host-to-device side closes with a command frame of that name. *)
Theorem COMMANDS_entry_shown (k : Z) (name : string) :
  COMMANDS !! k = Some name →
  ∃ cmd : byte,
    int_of_byte cmd = k
    ∧ ∀ self (opening f closing : InFrame),
        type opening = "enable" → type f = "result" →
        type closing = "disable" → mosi (data f) = [cmd] →
        run Time_str self [opening; f; closing]
        = ([mkAnalyzerFrame "command"
              (Some (start_time f)) (Some (end_time f))
              {[ "cmd" := name ]}],
           __init__, None).
Proof.
  intros Hk. pose proof (COMMANDS_keys_are_bytes k name Hk) as Hrange.
  destruct (Byte.of_N (Z.to_N k)) as [cmd|] eqn:Hb.
  2: { apply Byte.of_N_None_iff in Hb. lia. }
  apply Byte.to_of_N in Hb. exists cmd.
  assert (Hc : int_of_byte cmd = k).
  { unfold int_of_byte. rewrite Hb. lia. }
  split; [exact Hc|]. intros self opening f closing Ho Hf Hcl Hm.
  etrans; [apply (run_session_valid self opening closing f [] cmd [])|].
  - done.
  - by constructor.
  - done.
  - cbn. by rewrite Hm.
  - unfold dict_get. rewrite Hc, Hk. reflexivity.
Qed.

End AnalyzerMore.

(** The further theorems at concrete frames. *)

Lemma COMMANDS_names_distinct_witness :
  COMMANDS !! 0xC0 = Some "GetStatus" ∧ 0xC0 = 0xC0.
Proof.
  assert (H : COMMANDS !! 0xC0 = Some "GetStatus") by (vm_compute; reflexivity).
  split; [exact H|].
  exact (COMMANDS_names_distinct 0xC0 0xC0 "GetStatus" H H).
Defined.

Lemma get_frame_data_handle_result_witness :
  spi_enable ns_open_get_status = true
  ∧ get_frame_data
      (handle_result ns_open_get_status
         (ns_frame "result" 110 118 [Byte.x05] [Byte.x00]))
    = {| miso := [Byte.x00; Byte.x05]; mosi := [Byte.xc0; Byte.x00] |}.
Proof.
  split; [reflexivity|].
  rewrite (get_frame_data_handle_result ns_open_get_status
             (ns_frame "result" 110 118 [Byte.x05] [Byte.x00]) eq_refl).
  reflexivity.
Defined.

Lemma decode_raises_iff_witness :
  type ns_disable = "disable"
  ∧ is_valid_transaction ns_open_without_bytes = true
  ∧ mosi (get_frame_data ns_open_without_bytes) = []
  ∧ decode ns_str ns_open_without_bytes ns_disable
    = Raised IndexError ns_open_without_bytes.
Proof.
  split; [reflexivity|]. split; [reflexivity|]. split; [reflexivity|].
  apply (decode_raises_iff ns_str ns_open_without_bytes ns_disable
           IndexError ns_open_without_bytes).
  repeat split; reflexivity.
Defined.

Lemma decode_result_type_declared_witness :
  decode ns_str ns_open_get_status ns_disable
    = Returned
        (Some (mkAnalyzerFrame "command" (Some 100) (Some 108)
                 {[ "cmd" := "GetStatus" ]}))
        __init__ []
  ∧ is_Some (result_types !! "command").
Proof.
  assert (Hd : decode ns_str ns_open_get_status ns_disable
               = Returned
                   (Some (mkAnalyzerFrame "command" (Some 100) (Some 108)
                            {[ "cmd" := "GetStatus" ]}))
                   __init__ [])
    by (vm_compute; reflexivity).
  split; [exact Hd|].
  exact (proj1 (decode_result_type_declared ns_str _ _ _ _ _ Hd)).
Defined.

Lemma run_one_frame_per_close_witness :
  run ns_str __init__
    [ns_disable; ns_enable; ns_get_status; ns_error; ns_trigger; ns_disable]
  = ([mkAnalyzerFrame "error" (Some 200) (Some 200)
        {[ "error_info" :=
             "Invalid SPI transaction (spi_enable=False, transaction_start_time=None)" ]};
      mkAnalyzerFrame "error" (Some 7) (Some 9)
        {[ "error_info" :=
             "Unexpected frame type from input analyzer: trigger" ]};
      mkAnalyzerFrame "command" (Some 100) (Some 108)
        {[ "cmd" := "GetStatus" ]}],
     __init__, None)
  ∧ length
      (filter (λ f : InFrame,
                 type f ≠ "enable" ∧ type f ≠ "result" ∧ type f ≠ "error")
         [ns_disable; ns_enable; ns_get_status; ns_error; ns_trigger; ns_disable])
    = 3%nat.
Proof.
  assert (Hr : run ns_str __init__
                 [ns_disable; ns_enable; ns_get_status; ns_error; ns_trigger;
                  ns_disable]
               = ([mkAnalyzerFrame "error" (Some 200) (Some 200)
                     {[ "error_info" :=
                          "Invalid SPI transaction (spi_enable=False, transaction_start_time=None)" ]};
                   mkAnalyzerFrame "error" (Some 7) (Some 9)
                     {[ "error_info" :=
                          "Unexpected frame type from input analyzer: trigger" ]};
                   mkAnalyzerFrame "command" (Some 100) (Some 108)
                     {[ "cmd" := "GetStatus" ]}],
                  __init__, None))
    by (vm_compute; reflexivity).
  split; [exact Hr|].
  symmetry. exact (run_one_frame_per_close ns_str _ _ _ _ Hr).
Defined.

Lemma run_session_command_witness :
  run ns_str ns_open_get_status
    [ns_enable;
     ns_frame "result" 10 18 [Byte.x00] [Byte.x80];
     ns_frame "result" 20 28 [Byte.x00] [Byte.x01];
     ns_frame "result" 30 38 [Byte.x00] [Byte.x02];
     ns_disable]
  = ([mkAnalyzerFrame "command" (Some 10) (Some 38)
        {[ "cmd" := dict_get COMMANDS 0x80 "Unknown" ]}],
     __init__, None).
Proof.
  apply (run_session_command ns_str ns_open_get_status ns_enable ns_disable
           (ns_frame "result" 10 18 [Byte.x00] [Byte.x80])
           [ns_frame "result" 20 28 [Byte.x00] [Byte.x01];
            ns_frame "result" 30 38 [Byte.x00] [Byte.x02]]
           Byte.x80 [Byte.x01; Byte.x02]);
    try reflexivity.
  repeat constructor.
Defined.

Lemma reopen_forgets_witness :
  run ns_str ns_open_get_status
    [ns_enable; ns_get_status; ns_enable;
     ns_frame "result" 10 18 [Byte.x00] [Byte.x80]; ns_disable]
  = run ns_str __init__
      [ns_enable; ns_frame "result" 10 18 [Byte.x00] [Byte.x80]; ns_disable].
Proof.
  apply (reopen_forgets ns_str ns_open_get_status __init__ ns_enable ns_enable
           [ns_get_status]
           [ns_frame "result" 10 18 [Byte.x00] [Byte.x80]; ns_disable]);
    try reflexivity.
  repeat constructor.
Defined.

Lemma invalid_close_message_witness :
  is_valid_transaction (run ns_str __init__ [ns_get_status; ns_enable]).1.2
    = false
  ∧ handle_disable ns_str
      (run ns_str __init__ [ns_get_status; ns_enable]).1.2 ns_disable
    = Returned
        (Some (mkAnalyzerFrame "error" (Some 200) (Some 200)
                 {[ "error_info" :=
                      "Invalid SPI transaction (spi_enable=True, transaction_start_time=None)" ]}))
        __init__ [].
Proof.
  split; [reflexivity|].
  exact (invalid_close_message ns_str [ns_get_status; ns_enable] ns_disable
           eq_refl).
Defined.

Lemma COMMANDS_entry_shown_witness :
  COMMANDS !! 0x80 = Some "SetStandby"
  ∧ ∃ cmd : byte,
      int_of_byte cmd = 0x80
      ∧ ∀ (self : @SpiTransceiver Z) (opening f closing : @InFrame Z),
          type opening = "enable" → type f = "result" →
          type closing = "disable" → mosi (data f) = [cmd] →
          run ns_str self [opening; f; closing]
          = ([mkAnalyzerFrame "command"
                (Some (start_time f)) (Some (end_time f))
                {[ "cmd" := "SetStandby" ]}],
             __init__, None).
Proof.
  assert (H : COMMANDS !! 0x80 = Some "SetStandby") by (vm_compute; reflexivity).
  split; [exact H|].
  exact (COMMANDS_entry_shown ns_str 0x80 "SetStandby" H).
Defined.
